(** * The AUROC difference plot of [src/plot.js]

    The component reads [diff.csv], parses it with Papa Parse, maps every
    parsed row to a comparison row, averages the differences and renders a
    chart with four summary tiles.  JavaScript numbers are IEEE 754 binary64
    values, modelled by Rocq's primitive [float]; the values a parsed field can
    hold are modelled by [Js.Value]; the component's state, the console and the
    file reads are threaded through a small state-and-exception monad. *)

From Stdlib Require Import Floats ZArith DecimalString.
From stdpp Require Import gmap strings list.

Set Warnings "-inexact-float".

(** ** JavaScript values and the operators the component applies to them *)

Module Js.

(** What a property read of a parsed row can give: [undefined] for a missing
    key, and otherwise what Papa's dynamic typing leaves in a field. *)
Inductive Value : Type :=
| Undefined
| Null
| Bool (b : bool)
| Number (x : float)
| Str (s : string)
| Date (t : float).

(** Conversions that belong to the JavaScript engine and not to the
    repository: the numeric value of a string, and the shortest decimal
    text of a number. *)
Class Engine : Type := {
  StringToNumber : string -> float;
  NumberToString : float -> string
}.

(** [isNaN(d)] on a number. *)
Definition isNaN (d : float) : bool := PrimFloat.is_nan d.

Definition ToBoolean (v : Value) : bool :=
  match v with
  | Undefined | Null => false
  | Bool b => b
  | Number x => negb (PrimFloat.eqb x 0 || isNaN x)
  | Str s => negb (String.eqb s "")
  | Date _ => true
  end.

Definition ToNumber `{Engine} (v : Value) : float :=
  match v with
  | Undefined => nan
  | Null => 0%float
  | Bool true => 1%float
  | Bool false => 0%float
  | Number x => x
  | Str s => StringToNumber s
  | Date t => t
  end.

(** [a || b] *)
Definition or (a b : Value) : Value := if ToBoolean a then a else b.

(** [a - b] *)
Definition minus `{Engine} (a b : Value) : float :=
  PrimFloat.sub (ToNumber a) (ToNumber b).

(** [v !== undefined] *)
Definition is_defined (v : Value) : bool :=
  match v with Undefined => false | _ => true end.

(** An array length or index as a number: the nearest binary64 value
    (exact below 2^53, so for every length an array can have). *)
Definition number_of_nat (n : nat) : float :=
  SF2Prim (binary_normalize prec emax (Z.of_nat n) 0 false).

(** [Number.prototype.toFixed]: for a finite [x = m * 2^e] below 10^21, the
    integer [n] nearest to [x * 10^f], the larger one on a tie. *)
Definition reaches_1e21 (m : positive) (e : Z) : bool :=
  if (0 <=? e)%Z then (10 ^ 21 <=? Z.pos m * 2 ^ e)%Z
  else (10 ^ 21 * 2 ^ (- e) <=? Z.pos m)%Z.

Definition nearest_scaled (m : positive) (e : Z) (f : nat) : Z :=
  if (0 <=? e)%Z then (Z.pos m * 2 ^ e * 10 ^ Z.of_nat f)%Z
  else ((2 * Z.pos m * 10 ^ Z.of_nat f + 2 ^ (- e)) / 2 ^ (1 - e))%Z.

Fixpoint zeros (k : nat) : string :=
  match k with
  | O => ""
  | S k' => ("0" ++ zeros k')%string
  end.

Definition fixed_digits (n : Z) (f : nat) : string :=
  let m := NilZero.string_of_uint (N.to_uint (Z.to_N n)) in
  if (f =? 0)%nat then m
  else
    let k := String.length m in
    let m' := if (k <=? f)%nat then (zeros (f + 1 - k) ++ m)%string else m in
    let k' := if (k <=? f)%nat then (f + 1)%nat else k in
    (String.substring 0 (k' - f) m' ++ "." ++ String.substring (k' - f) f m')%string.

Definition toFixed `{Engine} (x : float) (f : nat) : string :=
  match Prim2SF x with
  | S754_nan => "NaN"
  | S754_infinity false => "Infinity"
  | S754_infinity true => "-Infinity"
  | S754_zero _ => fixed_digits 0 f
  | S754_finite s m e =>
      let sign := if s then "-" else "" in
      if reaches_1e21 m e
      then (sign ++ NumberToString (PrimFloat.abs x))%string
      else (sign ++ fixed_digits (nearest_scaled m e f) f)%string
  end.

(** A thrown value. *)
Inductive Exception : Type := Error (message : string).

End Js.

Import Js.

(** ** Data model *)

(** A field of a parsed row.  With [dynamicTyping] Papa turns the text of a
    field into a boolean, a number, a date, [null] (for the empty text) or
    leaves it as text; it never stores [undefined] under a header. *)
Inductive Field : Type :=
| FNull
| FBool (b : bool)
| FNumber (x : float)
| FText (s : string)
| FDate (t : float).

Definition field_value (c : Field) : Value :=
  match c with
  | FNull => Null
  | FBool b => Bool b
  | FNumber x => Number x
  | FText s => Str s
  | FDate t => Date t
  end.

(** A parsed row: header name to field. *)
Abbreviation RawRow := (gmap string Field).

(** [row[key]] *)
Definition get (row : RawRow) (key : string) : Value :=
  match row !! key with
  | Some c => field_value c
  | None => Undefined
  end.

Record ComparisonRow : Type := {
  rowIndex : Value;
  xgboost : Value;
  neuralNet : Value;
  difference : float;
  originalDifference : Value
}.

Record ParseError : Type := {
  errorType : string;
  errorCode : string;
  errorMessage : string;
  errorRow : nat
}.

(** The result of [Papa.parse]. *)
Record ParseResult : Type := {
  parsedData : list RawRow;
  parsedErrors : list ParseError
}.

(** The collaborators of the component: the file-access capability behind
    [window.fs.readFile] and the CSV parser. Either may throw. *)
Class Host : Type := {
  readFile : string -> string -> Exception + string;
  Papa_parse : string -> Exception + ParseResult
}.

(** ** Transformer: [processedData] *)

Section Transformer.
Context `{Engine}.

(** The callback of [parsed.data.map((row, index) => ...)]. *)
Definition processRow (row : RawRow) (index : nat) : ComparisonRow :=
  let nnMinusXgb :=
    minus (or (get row "Neural Net (AUROC)") (Number 0))
          (or (get row "Xgboost (AUROC)") (Number 0)) in
  {| rowIndex :=
       if is_defined (get row "Row Index") then get row "Row Index"
       else Number (number_of_nat index);
     xgboost := or (get row "Xgboost (AUROC)") (Number 0);
     neuralNet := or (get row "Neural Net (AUROC)") (Number 0);
     difference := nnMinusXgb;
     originalDifference := or (get row "Difference") (Number 0) |}.

Definition processedData (rows : list RawRow) : list ComparisonRow :=
  imap (fun index row => processRow row index) rows.

End Transformer.

(** ** Aggregator: [validDifferences] and [avgDiff] *)

Definition validDifferences (data : list ComparisonRow) : list float :=
  List.filter (fun d => negb (isNaN d)) (map difference data).

(** [values.reduce((sum, val) => sum + val, 0)] *)
Definition reduce_sum (values : list float) : float :=
  fold_left (fun sum val => PrimFloat.add sum val) values 0%float.

Definition avgDiff (data : list ComparisonRow) : float :=
  PrimFloat.div (reduce_sum (validDifferences data))
                (number_of_nat (length (validDifferences data))).

(** The mean as the specification words it: the sum of the values, taken
    from the first to the last, divided by their count. *)
Fixpoint sum_upto (values : list float) (n : nat) : float :=
  match n with
  | O => 0%float
  | S n' =>
      match values !! n' with
      | Some v => PrimFloat.add (sum_upto values n') v
      | None => sum_upto values n'
      end
  end.

Definition mean_spec (values : list float) : float :=
  PrimFloat.div (sum_upto values (length values)) (number_of_nat (length values)).

(** The rows whose difference is a defined number, and their mean. *)
Definition valid_rows (data : list ComparisonRow) : list ComparisonRow :=
  filter (fun r => isNaN (difference r) = false) data.

Definition averageDifference_spec (data : list ComparisonRow) : float :=
  mean_spec (map difference (valid_rows data)).

(** ** Component state and the load effect *)

Record ViewState : Type := {
  data : list ComparisonRow;
  avgDifference : float;
  loading : bool
}.

(** The three [useState] initial values. *)
Definition initialState : ViewState :=
  {| data := []; avgDifference := 0%float; loading := true |}.

Inductive ConsoleEntry : Type :=
| CsvParsingErrors (errors : list ParseError)
| ErrorLoadingData (error : Exception).

(** What the effect can observe and change: the component state, the
    console, and the file reads it has issued. *)
Record World : Type := {
  view : ViewState;
  console : list ConsoleEntry;
  reads : list string
}.

Definition initialWorld : World :=
  {| view := initialState; console := []; reads := [] |}.

Inductive Completion (A : Type) : Type :=
| Normal (a : A)
| Throw (e : Exception).
Arguments Normal {A} a.
Arguments Throw {A} e.

Definition M (A : Type) : Type := World -> Completion A * World.

Definition ret {A} (a : A) : M A := fun w => (Normal a, w).

Definition bind {A B} (m : M A) (k : A -> M B) : M B :=
  fun w =>
    match m w with
    | (Normal a, w') => k a w'
    | (Throw e, w') => (Throw e, w')
    end.

Definition try_catch {A} (body : M A) (handler : Exception -> M A) : M A :=
  fun w =>
    match body w with
    | (Throw e, w') => handler e w'
    | completed => completed
    end.

Declare Scope js_scope.
Delimit Scope js_scope with js.
Notation "x <- m ;; k" := (bind m (fun x => k))
  (at level 100, m at next level, right associativity) : js_scope.
Notation "m ;; k" := (bind m (fun _ => k))
  (at level 100, right associativity) : js_scope.

Definition lift {A} (r : Exception + A) : M A :=
  fun w => match r with inl e => (Throw e, w) | inr a => (Normal a, w) end.

Definition console_error (entry : ConsoleEntry) : M unit :=
  fun w => (Normal tt,
            {| view := view w; console := console w ++ [entry]; reads := reads w |}).

Definition update_view (f : ViewState -> ViewState) : M unit :=
  fun w => (Normal tt,
            {| view := f (view w); console := console w; reads := reads w |}).

Definition setData (d : list ComparisonRow) : M unit :=
  update_view (fun s =>
    {| data := d; avgDifference := avgDifference s; loading := loading s |}).

Definition setAvgDifference (a : float) : M unit :=
  update_view (fun s =>
    {| data := data s; avgDifference := a; loading := loading s |}).

Definition setLoading (b : bool) : M unit :=
  update_view (fun s =>
    {| data := data s; avgDifference := avgDifference s; loading := b |}).

Section Loader.
Context `{Engine} `{Host}.

(** [await window.fs.readFile(name, { encoding })] *)
Definition await_readFile (name encoding : string) : M string :=
  fun w =>
    let w' := {| view := view w; console := console w;
                 reads := reads w ++ [name] |} in
    match readFile name encoding with
    | inl e => (Throw e, w')
    | inr text => (Normal text, w')
    end.

(** The body of the [try] block after the file has been read:
    parser, transformer, aggregator and the three state updates. *)
Definition pipeline (fileContent : string) : M unit :=
  (parsed <- lift (Papa_parse fileContent) ;;
   (if (0 <? length (parsedErrors parsed))%nat
    then console_error (CsvParsingErrors (parsedErrors parsed))
    else ret tt) ;;
   let processed := processedData (parsedData parsed) in
   let avg := avgDiff processed in
   setData processed ;;
   setAvgDifference avg ;;
   setLoading false)%js.

Definition loadData : M unit :=
  try_catch
    (fileContent <- await_readFile "diff.csv" "utf8" ;;
     pipeline fileContent)%js
    (fun error =>
       console_error (ErrorLoadingData error) ;;
       setLoading false)%js.

(** The load fails with [e]: the read throws it, or the parser does. *)
Definition load_fails (e : Exception) : Prop :=
  readFile "diff.csv" "utf8" = inl e \/
  exists text, readFile "diff.csv" "utf8" = inr text /\ Papa_parse text = inl e.

(** The world a failed load leaves behind. *)
Definition after_failure (e : Exception) (w : World) : World :=
  {| view := {| data := data (view w);
                avgDifference := avgDifference (view w);
                loading := false |};
     console := console w ++ [ErrorLoadingData e];
     reads := reads w ++ ["diff.csv"] |}.

(** The world a load leaves behind when the parser returned [parsed]. *)
Definition after_success (parsed : ParseResult) (w : World) : World :=
  {| view := {| data := processedData (parsedData parsed);
                avgDifference := avgDiff (processedData (parsedData parsed));
                loading := false |};
     console :=
       console w ++
       (if (0 <? length (parsedErrors parsed))%nat
        then [CsvParsingErrors (parsedErrors parsed)] else []);
     reads := reads w ++ ["diff.csv"] |}.

End Loader.

(** ** Renderer: what the returned page shows *)

Definition wins (d : list ComparisonRow) : nat :=
  length (List.filter (fun r => PrimFloat.ltb 0 (difference r)) d).

Definition losses (d : list ComparisonRow) : nat :=
  length (List.filter (fun r => PrimFloat.ltb (difference r) 0) d).

Definition ties (d : list ComparisonRow) : nat :=
  length (List.filter (fun r => PrimFloat.eqb (difference r) 0) d).

Inductive Badge : Type := Emerald | Red.

Record Tile : Type := { tileCount : nat; tilePercent : string }.

Record Dashboard : Type := {
  averageText : string;
  averageBadge : Badge;
  chart : list (Value * float);
  averageLine : float;
  averageLabel : string;
  totalComparisons : nat;
  deepLearningWins : Tile;
  xgboostWins : Tile;
  tiedPerformance : Tile
}.

Inductive Rendered : Type :=
| LoadingIndicator
| Page (d : Dashboard).

Section Renderer.
Context `{Engine}.

(** [((count / data.length) * 100).toFixed(1)] followed by [%] *)
Definition percentage (count total : nat) : string :=
  (toFixed (PrimFloat.mul
              (PrimFloat.div (number_of_nat count) (number_of_nat total))
              100) 1 ++ "%")%string.

Definition tile (count total : nat) : Tile :=
  {| tileCount := count; tilePercent := percentage count total |}.

Definition render (s : ViewState) : Rendered :=
  if loading s then LoadingIndicator
  else
    Page
      {| averageText := toFixed (avgDifference s) 4;
         averageBadge :=
           if PrimFloat.leb 0 (avgDifference s) then Emerald else Red;
         chart := map (fun r => (rowIndex r, difference r)) (data s);
         averageLine := avgDifference s;
         averageLabel := ("Average: " ++ toFixed (avgDifference s) 3)%string;
         totalComparisons := length (data s);
         deepLearningWins := tile (wins (data s)) (length (data s));
         xgboostWins := tile (losses (data s)) (length (data s));
         tiedPerformance := tile (ties (data s)) (length (data s)) |}.

(** The text of the average badge, when the page shows one. *)
Definition shownAverage (s : ViewState) : option string :=
  match render s with
  | LoadingIndicator => None
  | Page d => Some (averageText d)
  end.

End Renderer.

(** ** Rows that differ in one column only *)

Definition agree_except (column : string) (r1 r2 : RawRow) : Prop :=
  forall key, key <> column -> r1 !! key = r2 !! key.

(** ** Fixtures: an engine, hosts and rows to evaluate the model on *)

(** Every text field of the fixtures is non-numeric and no number in them
    reaches 10^21, which is all this engine has to get right. *)
Definition exampleEngine : Engine :=
  {| StringToNumber := fun _ => nan; NumberToString := fun _ => "" |}.

Definition hostWith (file : Exception + string)
    (parse : Exception + ParseResult) : Host :=
  {| readFile := fun _ _ => file; Papa_parse := fun _ => parse |}.

Definition mkRow (fields : list (string * Field)) : RawRow :=
  list_to_map fields.

Definition scenarioRows : list RawRow :=
  [ mkRow [("Row Index", FNumber 0); ("Xgboost (AUROC)", FNumber 0.90);
           ("Neural Net (AUROC)", FNumber 0.85)];
    mkRow [("Row Index", FNumber 1); ("Xgboost (AUROC)", FNumber 0.80);
           ("Neural Net (AUROC)", FNumber 0.95)] ].

(** A row without index whose neural-net score is not a number. *)
Definition textRow : RawRow :=
  mkRow [("Xgboost (AUROC)", FNumber 0.7); ("Neural Net (AUROC)", FText "n/a");
         ("Difference", FNumber 0.3)].

(** The same row with another value in its Difference column. *)
Definition textRow' : RawRow := <["Difference" := FText "stale"]> textRow.

(** A row that has only an XGBoost score. *)
Definition xgboostOnlyRow : RawRow := mkRow [("Xgboost (AUROC)", FNumber 0.7)].

Definition missingFile : Host :=
  hostWith (inl (Error "ENOENT: diff.csv"))
           (inr {| parsedData := []; parsedErrors := [] |}).

Definition headerOnlyFile : Host :=
  hostWith (inr "Row Index,Xgboost (AUROC),Neural Net (AUROC),Difference")
           (inr {| parsedData := []; parsedErrors := [] |}).

Definition brokenParser : Host :=
  hostWith (inr "Row Index,Xgboost (AUROC)") (inl (Error "parser failure")).

Definition textFile : Host :=
  hostWith (inr "two rows with a textual score")
           (inr {| parsedData := [textRow; textRow'];
                   parsedErrors := [ {| errorType := "FieldMismatch";
                                        errorCode := "TooFewFields";
                                        errorMessage := "Too few fields";
                                        errorRow := 0 |} ] |}).

Definition scenarioFile : Host :=
  hostWith (inr "the two rows of the scenario")
           (inr {| parsedData := scenarioRows; parsedErrors := [] |}).

(** ** Scores as the data source means them *)

(** A score field that is absent or empty. *)
Definition blank (o : option Field) : Prop := o = None \/ o = Some FNull.

(** A score field that is absent, empty or a finite number. *)
Definition plain_score (o : option Field) : Prop :=
  match o with
  | None | Some FNull => True
  | Some (FNumber x) => PrimFloat.is_finite x = true
  | Some _ => False
  end.

Definition plain_row (row : RawRow) : Prop :=
  plain_score (row !! "Neural Net (AUROC)") /\
  plain_score (row !! "Xgboost (AUROC)").

(** The rows no tile counts: those whose difference is NaN. *)
Definition countNaN (d : list ComparisonRow) : nat :=
  length (List.filter (fun r => isNaN (difference r)) d).

(** A short line of the file: an index and an XGBoost score only. *)
Definition shortRow : RawRow :=
  mkRow [("Row Index", FNumber 3); ("Xgboost (AUROC)", FNumber 0.8)].

(** A line that has an index and two empty score fields. *)
Definition blankRow : RawRow :=
  mkRow [("Row Index", FNumber 4); ("Xgboost (AUROC)", FNull);
         ("Neural Net (AUROC)", FNull)].

(** * Properties *)

(** ** Transformer *)

Section TransformerFacts.
Context `{Engine}.

Lemma get_Some (row : RawRow) key c :
  row !! key = Some c -> get row key = field_value c.
Proof. intros Hk. unfold get. now rewrite Hk. Qed.

Lemma get_None (row : RawRow) key :
  row !! key = None -> get row key = Undefined.
Proof. intros Hk. unfold get. now rewrite Hk. Qed.

Lemma field_value_defined c : is_defined (field_value c) = true.
Proof. now destruct c. Qed.

Lemma processedData_lookup (rows : list RawRow) i :
  processedData rows !! i = (fun row => processRow row i) <$> rows !! i.
Proof. unfold processedData. now rewrite list_lookup_imap. Qed.

Lemma processedData_elem (rows : list RawRow) r :
  r ∈ processedData rows ->
  exists i row, rows !! i = Some row /\ r = processRow row i.
Proof.
  intros [i Hi]%list_elem_of_lookup.
  rewrite processedData_lookup in Hi.
  destruct (rows !! i) as [row|] eqn:Hrow; [|discriminate].
  exists i, row. split; [exact Hrow|]. now inversion Hi.
Qed.

(** A missing score counts as 0. *)
Lemma missing_score_defaults (row : RawRow) key :
  row !! key = None -> or (get row key) (Number 0) = Number 0.
Proof. intros Hk. now rewrite (get_None _ _ Hk). Qed.

(** A row without a neural-net score: the score counts as 0 and the
    difference is [0 - xgboost]. *)
Lemma missing_neuralNet_difference (row : RawRow) (i : nat) :
  row !! "Neural Net (AUROC)" = None ->
  neuralNet (processRow row i) = Number 0 /\
  difference (processRow row i)
  = PrimFloat.sub 0 (ToNumber (xgboost (processRow row i))).
Proof.
  intros Hk. unfold processRow; simpl.
  rewrite (missing_score_defaults row _ Hk). split; reflexivity.
Qed.

(** A difference that is a number also passes JavaScript's [===]. *)
Lemma difference_strictly_equal (row : RawRow) (i : nat) :
  let r := processRow row i in
  isNaN (difference r) = false ->
  PrimFloat.eqb (difference r) (minus (neuralNet r) (xgboost r)) = true.
Proof.
  intros r. change (minus (neuralNet r) (xgboost r)) with (difference r).
  unfold isNaN, PrimFloat.is_nan.
  now destruct (PrimFloat.eqb (difference r) (difference r)).
Qed.

End TransformerFacts.

(** C4: the transformer keeps the number and the order of the rows: its
    output is as long as its input and its i-th row is made from the i-th
    input row and from [i] alone. *)
Theorem processedData_keeps_length_and_order `{Engine} (rows : list RawRow) :
  length (processedData rows) = length rows /\
  forall i, processedData rows !! i = (fun row => processRow row i) <$> rows !! i.
Proof.
  split.
  - unfold processedData. apply length_imap.
  - intros i. apply processedData_lookup.
Qed.

(** C6: the row index of the i-th comparison row is the value of the raw
    row's [Row Index] column when the row has that column, and the number
    [i] when it has not. *)
Theorem rowIndex_is_column_or_position `{Engine}
    (rows : list RawRow) (i : nat) (row : RawRow) :
  rows !! i = Some row ->
  exists r, processedData rows !! i = Some r /\
    rowIndex r =
      match row !! "Row Index" with
      | Some c => field_value c
      | None => Number (number_of_nat i)
      end.
Proof.
  intros Hrow. exists (processRow row i). split.
  - rewrite processedData_lookup, Hrow. reflexivity.
  - unfold processRow, get; simpl.
    destruct (row !! "Row Index") as [c|].
    + now rewrite field_value_defined.
    + reflexivity.
Qed.

Lemma rowIndex_is_column_or_position_witness :
  exists r, @processedData exampleEngine (scenarioRows ++ [textRow]) !! 2%nat = Some r /\
    rowIndex r = Number 2.
Proof.
  apply (@rowIndex_is_column_or_position exampleEngine
           (scenarioRows ++ [textRow]) 2%nat textRow).
  reflexivity.
Defined.

(** ** Aggregator *)

(** Left-to-right summation, by partial sums. *)
Lemma reduce_sum_take (values : list float) (n : nat) :
  n <= length values ->
  fold_left (fun sum val => PrimFloat.add sum val) (take n values) 0%float
  = sum_upto values n.
Proof.
  induction n as [|n IH]; intros Hn; [reflexivity|].
  destruct (lookup_lt_is_Some_2 values n) as [v Hv]; [lia|].
  rewrite (take_S_r _ _ _ Hv), fold_left_app. simpl.
  rewrite Hv, IH by lia. reflexivity.
Qed.

Lemma reduce_sum_sum_upto (values : list float) :
  reduce_sum values = sum_upto values (length values).
Proof.
  unfold reduce_sum.
  rewrite <- (reduce_sum_take values (length values)) by lia.
  now rewrite firstn_all.
Qed.

Lemma validDifferences_valid_rows (data : list ComparisonRow) :
  validDifferences data = map difference (valid_rows data).
Proof.
  unfold validDifferences, valid_rows.
  induction data as [|r data IH]; [reflexivity|].
  rewrite filter_cons. simpl. rewrite IH.
  destruct (isNaN (difference r)); case_decide; simpl; congruence.
Qed.

Lemma validDifferences_all_NaN (data : list ComparisonRow) :
  Forall (fun r => isNaN (difference r) = true) data ->
  validDifferences data = [].
Proof.
  unfold validDifferences.
  induction 1 as [|r data Hr _ IH]; [reflexivity|].
  simpl. now rewrite Hr.
Qed.

Lemma avgDiff_all_NaN (data : list ComparisonRow) :
  Forall (fun r => isNaN (difference r) = true) data -> nan = avgDiff data.
Proof.
  intros Hall. unfold avgDiff.
  rewrite (validDifferences_all_NaN data Hall). reflexivity.
Qed.

(** C2: the average is the mean (left-to-right floating-point sum divided
    by the count) of the differences of exactly the rows whose difference is
    not NaN; for an empty data set, and for one whose differences are all
    NaN, it is NaN. *)
Theorem avgDiff_is_mean_of_valid_differences (data : list ComparisonRow) :
  avgDiff data = averageDifference_spec data /\
  avgDiff [] = nan /\
  (Forall (fun r => isNaN (difference r) = true) data -> avgDiff data = nan).
Proof.
  split; [|split].
  - unfold avgDiff, averageDifference_spec, mean_spec.
    rewrite reduce_sum_sum_upto, validDifferences_valid_rows. reflexivity.
  - reflexivity.
  - intros Hall. symmetry. now apply avgDiff_all_NaN.
Qed.

Lemma avgDiff_is_mean_of_valid_differences_witness :
  avgDiff (@processedData exampleEngine [textRow; textRow']) = nan.
Proof.
  apply (avgDiff_is_mean_of_valid_differences
           (@processedData exampleEngine [textRow; textRow'])).
  repeat constructor.
Defined.

(** ** Summary tiles *)

(** A number that is not NaN is above, below or equal to zero, and only one
    of the three. *)
Lemma sign_trichotomy (d : float) :
  isNaN d = false ->
  (Nat.b2n (PrimFloat.ltb 0 d) + Nat.b2n (PrimFloat.ltb d 0)
   + Nat.b2n (PrimFloat.eqb d 0) = 1)%nat.
Proof.
  unfold isNaN, PrimFloat.is_nan.
  rewrite !FloatAxioms.ltb_spec, !FloatAxioms.eqb_spec.
  change (Prim2SF 0) with (S754_zero false).
  destruct (Prim2SF d) as [s|s| |s m e]; cbn; try discriminate;
    destruct s; reflexivity.
Qed.

Lemma finite_not_NaN (d : float) :
  PrimFloat.is_finite d = true -> isNaN d = false.
Proof.
  unfold PrimFloat.is_finite, isNaN.
  destruct (PrimFloat.is_nan d); [discriminate | reflexivity].
Qed.

Lemma count_filter_cons {A} (p : A -> bool) (x : A) (l : list A) :
  length (List.filter p (x :: l)) = (Nat.b2n (p x) + length (List.filter p l))%nat.
Proof. simpl. now destruct (p x). Qed.

Lemma tiles_partition_non_NaN (d : list ComparisonRow) :
  Forall (fun r => isNaN (difference r) = false) d ->
  (wins d + losses d + ties d = length d)%nat.
Proof.
  unfold wins, losses, ties.
  induction 1 as [|r d Hr _ IH]; [reflexivity|].
  rewrite !count_filter_cons. pose proof (sign_trichotomy _ Hr). simpl. lia.
Qed.

(** C5: when every difference is finite, the rows counted as wins
    ([difference > 0]), as losses ([difference < 0]) and as ties
    ([difference === 0]) add up to the number of rows. *)
Theorem wins_losses_ties_partition (d : list ComparisonRow) :
  Forall (fun r => PrimFloat.is_finite (difference r) = true) d ->
  (wins d + losses d + ties d = length d)%nat.
Proof.
  intros Hfin. apply tiles_partition_non_NaN.
  eapply Forall_impl; [exact Hfin|].
  intros r Hr. now apply finite_not_NaN.
Qed.

Lemma wins_losses_ties_partition_witness :
  let d := @processedData exampleEngine (scenarioRows ++ [xgboostOnlyRow; ∅]) in
  (wins d + losses d + ties d = 4)%nat.
Proof.
  intros d.
  apply (wins_losses_ties_partition d).
  repeat constructor.
Defined.

(** ** The Difference column *)

Section DifferenceColumn.
Context `{Engine}.

Lemma agree_except_get (column key : string) (r1 r2 : RawRow) :
  agree_except column r1 r2 -> key <> column -> get r1 key = get r2 key.
Proof. intros Hagree Hne. unfold get. now rewrite (Hagree key Hne). Qed.

(** Only [originalDifference] reads the Difference column. *)
Lemma processRow_agree (r1 r2 : RawRow) (i : nat) :
  agree_except "Difference" r1 r2 ->
  rowIndex (processRow r1 i) = rowIndex (processRow r2 i) /\
  xgboost (processRow r1 i) = xgboost (processRow r2 i) /\
  neuralNet (processRow r1 i) = neuralNet (processRow r2 i) /\
  difference (processRow r1 i) = difference (processRow r2 i).
Proof.
  intros Hagree. unfold processRow; simpl.
  rewrite (agree_except_get _ "Row Index" _ _ Hagree) by discriminate.
  rewrite (agree_except_get _ "Xgboost (AUROC)" _ _ Hagree) by discriminate.
  rewrite (agree_except_get _ "Neural Net (AUROC)" _ _ Hagree) by discriminate.
  repeat split; reflexivity.
Qed.

Lemma processedData_agree {B} (f : ComparisonRow -> B)
    (rows1 rows2 : list RawRow) :
  (forall r1 r2 i, agree_except "Difference" r1 r2 ->
     f (processRow r1 i) = f (processRow r2 i)) ->
  Forall2 (agree_except "Difference") rows1 rows2 ->
  map f (processedData rows1) = map f (processedData rows2).
Proof.
  intros Hf Hrows. apply list_eq. intros i.
  rewrite !list_lookup_fmap, !processedData_lookup.
  destruct (rows1 !! i) as [r1|] eqn:H1.
  - destruct (Forall2_lookup_l _ _ _ _ _ Hrows H1) as (r2 & -> & Hagree).
    simpl. now rewrite (Hf r1 r2 i Hagree).
  - apply lookup_ge_None in H1.
    rewrite (Forall2_length _ _ _ Hrows) in H1.
    apply lookup_ge_None in H1. now rewrite H1.
Qed.

End DifferenceColumn.

(** What the count of a tile and the average read of the data: the list of
    differences. *)
Lemma count_by_difference (p : float -> bool) (d : list ComparisonRow) :
  length (List.filter (fun r => p (difference r)) d)
  = length (List.filter p (map difference d)).
Proof.
  induction d as [|r d IH]; [reflexivity|].
  simpl. destruct (p (difference r)); simpl; now rewrite IH.
Qed.

Lemma avgDiff_by_difference (d1 d2 : list ComparisonRow) :
  map difference d1 = map difference d2 -> avgDiff d1 = avgDiff d2.
Proof. intros Heq. unfold avgDiff, validDifferences. now rewrite Heq. Qed.

Lemma render_by_chart `{Engine} (d1 d2 : list ComparisonRow) (a : float) (l : bool) :
  map (fun r => (rowIndex r, difference r)) d1
  = map (fun r => (rowIndex r, difference r)) d2 ->
  render {| data := d1; avgDifference := a; loading := l |}
  = render {| data := d2; avgDifference := a; loading := l |}.
Proof.
  intros Hchart.
  assert (Hdiff : map difference d1 = map difference d2).
  { apply (f_equal (map snd)) in Hchart.
    now rewrite !map_map in Hchart. }
  assert (Hlen : length d1 = length d2).
  { apply (f_equal (@length _)) in Hdiff. now rewrite !length_map in Hdiff. }
  unfold render, wins, losses, ties; simpl.
  destruct l; [reflexivity|].
  rewrite Hchart, Hlen.
  rewrite (count_by_difference (fun x => PrimFloat.ltb 0 x)),
          (count_by_difference (fun x => PrimFloat.ltb x 0)),
          (count_by_difference (fun x => PrimFloat.eqb x 0)), Hdiff.
  rewrite <- (count_by_difference (fun x => PrimFloat.ltb 0 x)),
          <- (count_by_difference (fun x => PrimFloat.ltb x 0)),
          <- (count_by_difference (fun x => PrimFloat.eqb x 0)).
  reflexivity.
Qed.

(** C7: two sequences of raw rows that agree on every column but Difference
    give the same differences and the same average, and the page rendered
    from them is the same: [originalDifference] is carried and never read. *)
Theorem Difference_column_is_dead `{Engine} (rows1 rows2 : list RawRow) :
  Forall2 (agree_except "Difference") rows1 rows2 ->
  map difference (processedData rows1) = map difference (processedData rows2) /\
  avgDiff (processedData rows1) = avgDiff (processedData rows2) /\
  forall l,
    render {| data := processedData rows1;
              avgDifference := avgDiff (processedData rows1); loading := l |}
    = render {| data := processedData rows2;
                avgDifference := avgDiff (processedData rows2); loading := l |}.
Proof.
  intros Hrows.
  assert (Hdiff : map difference (processedData rows1)
                  = map difference (processedData rows2)).
  { apply processedData_agree; [|exact Hrows].
    intros r1 r2 i Hagree. apply (processRow_agree r1 r2 i Hagree). }
  assert (Havg : avgDiff (processedData rows1) = avgDiff (processedData rows2))
    by now apply avgDiff_by_difference.
  split; [exact Hdiff|]. split; [exact Havg|].
  intros l. rewrite Havg. apply render_by_chart.
  apply processedData_agree; [|exact Hrows].
  intros r1 r2 i Hagree.
  destruct (processRow_agree r1 r2 i Hagree) as (-> & _ & _ & ->).
  reflexivity.
Qed.

Lemma agree_except_insert (column : string) (c : Field) (row : RawRow) :
  agree_except column row (<[column := c]> row).
Proof. intros key Hne. now rewrite lookup_insert_ne. Qed.

Lemma Difference_column_is_dead_witness :
  map difference (@processedData exampleEngine [textRow; textRow'])
  = map difference (@processedData exampleEngine [textRow'; textRow'])
  /\ avgDiff (@processedData exampleEngine [textRow; textRow'])
     = avgDiff (@processedData exampleEngine [textRow'; textRow']).
Proof.
  destruct (@Difference_column_is_dead exampleEngine
              [textRow; textRow'] [textRow'; textRow']) as (Hd & Ha & _).
  - constructor; [apply agree_except_insert|].
    constructor; [|constructor]. intros key _. reflexivity.
  - split; [exact Hd | exact Ha].
Defined.

(** ** The difference of a row and its two scores *)




(** ** Loader *)

Section LoaderFacts.
Context `{Engine} `{Host}.

Lemma loadData_on_failure (e : Exception) (w : World) :
  load_fails e -> loadData w = (Normal tt, after_failure e w).
Proof.
  intros [Hread | (text & Hread & Hparse)];
    unfold loadData, try_catch, bind, await_readFile; rewrite Hread.
  - reflexivity.
  - unfold pipeline, bind, lift. rewrite Hparse. reflexivity.
Qed.

Lemma loadData_on_success (text : string) (parsed : ParseResult) (w : World) :
  readFile "diff.csv" "utf8" = inr text ->
  Papa_parse text = inr parsed ->
  loadData w = (Normal tt, after_success parsed w).
Proof.
  intros Hread Hparse.
  unfold loadData, try_catch, bind, await_readFile. rewrite Hread.
  unfold pipeline, bind, lift. rewrite Hparse.
  unfold after_success.
  destruct (0 <? length (parsedErrors parsed))%nat; simpl.
  - reflexivity.
  - now rewrite app_nil_r.
Qed.

(** Every load fails or succeeds in the sense above. *)
Lemma load_outcome :
  (exists e, load_fails e) \/
  (exists text parsed,
      readFile "diff.csv" "utf8" = inr text /\ Papa_parse text = inr parsed).
Proof.
  unfold load_fails.
  destruct (readFile "diff.csv" "utf8") as [e|text] eqn:Hread; [eauto|].
  destruct (Papa_parse text) as [e|parsed] eqn:Hparse; [|eauto 6].
  left. exists e. right. eauto.
Qed.

(** The effect always completes normally and always clears the flag. *)
Lemma loadData_never_throws (w : World) :
  exists w', loadData w = (Normal tt, w') /\ loading (view w') = false.
Proof.
  destruct load_outcome as [[e He] | (text & parsed & Hread & Hparse)].
  - exists (after_failure e w). now rewrite (loadData_on_failure e w He).
  - exists (after_success parsed w).
    now rewrite (loadData_on_success text parsed w Hread Hparse).
Qed.

Lemma pipeline_run (text : string) (w : World) :
  pipeline text w =
    match Papa_parse text with
    | inl e => (Throw e, w)
    | inr parsed =>
        (Normal tt,
         {| view := {| data := processedData (parsedData parsed);
                       avgDifference := avgDiff (processedData (parsedData parsed));
                       loading := false |};
            console :=
              console w ++
              (if (0 <? length (parsedErrors parsed))%nat
               then [CsvParsingErrors (parsedErrors parsed)] else []);
            reads := reads w |})
    end.
Proof.
  unfold pipeline, bind, lift.
  destruct (Papa_parse text) as [e|parsed]; [reflexivity|].
  destruct (0 <? length (parsedErrors parsed))%nat; simpl.
  - reflexivity.
  - rewrite app_nil_r. now destruct w.
Qed.

End LoaderFacts.

(** C3: when the read of [diff.csv] or the parser throws, [loadData]
    completes normally: the error is logged on the console, the loading flag
    is cleared, the data set is left as it was (empty, from the initial
    state), and the file has been read once. *)
Theorem loadData_failure_is_caught `{Engine} `{Host} (e : Exception) (w : World) :
  load_fails e ->
  fst (loadData w) = Normal tt /\
  console (snd (loadData w)) = console w ++ [ErrorLoadingData e] /\
  loading (view (snd (loadData w))) = false /\
  data (view (snd (loadData w))) = data (view w) /\
  data (view (snd (loadData initialWorld))) = [] /\
  reads (snd (loadData w)) = reads w ++ ["diff.csv"].
Proof.
  intros Hfail.
  rewrite (loadData_on_failure e w Hfail),
          (loadData_on_failure e initialWorld Hfail).
  repeat split; reflexivity.
Qed.

Lemma loadData_failure_is_caught_witness :
  fst (@loadData exampleEngine missingFile initialWorld) = Normal tt /\
  loading (view (snd (@loadData exampleEngine brokenParser initialWorld))) = false.
Proof.
  split.
  - apply (@loadData_failure_is_caught exampleEngine missingFile
             (Error "ENOENT: diff.csv") initialWorld).
    left. reflexivity.
  - apply (@loadData_failure_is_caught exampleEngine brokenParser
             (Error "parser failure") initialWorld).
    right. exists "Row Index,Xgboost (AUROC)". split; reflexivity.
Defined.

(** C8: the parser-transformer-aggregator pipeline is a function of the raw
    text: from any two prior worlds it completes the same way and, when it
    completes normally, leaves the same data set and average; running it a
    second time on the same text changes neither. *)
Theorem pipeline_is_deterministic `{Engine} `{Host} (text : string) (w1 w2 : World) :
  fst (pipeline text w1) = fst (pipeline text w2) /\
  (fst (pipeline text w1) = Normal tt ->
   view (snd (pipeline text w1)) = view (snd (pipeline text w2)) /\
   view (snd ((pipeline text ;; pipeline text)%js w1))
   = view (snd (pipeline text w1))).
Proof.
  unfold bind. rewrite !pipeline_run.
  destruct (Papa_parse text) as [e|parsed] eqn:Hparse.
  - split; [reflexivity|]. discriminate.
  - split; [reflexivity|]. intros _.
    rewrite pipeline_run, Hparse. split; reflexivity.
Qed.

Lemma pipeline_is_deterministic_witness :
  view (snd (@pipeline exampleEngine scenarioFile "text" initialWorld))
  = view (snd (@pipeline exampleEngine scenarioFile "text"
                 (snd (@loadData exampleEngine textFile initialWorld)))).
Proof.
  apply (@pipeline_is_deterministic exampleEngine scenarioFile "text"
           initialWorld (snd (@loadData exampleEngine textFile initialWorld))).
  reflexivity.
Defined.

(** C10: a failed load leaves the stored average at its initial value 0 and
    changes the loading flag only, so the page shows [0.0000]; a successful
    load whose rows are none, or all have a NaN difference, stores NaN, and
    the page shows [NaN]. *)
Theorem failed_load_shows_zero_empty_load_shows_NaN `{Engine} `{Host} :
  (forall e, load_fails e ->
     view (snd (loadData initialWorld))
     = {| data := []; avgDifference := 0%float; loading := false |} /\
     shownAverage (view (snd (loadData initialWorld))) = Some "0.0000") /\
  (forall text parsed,
     readFile "diff.csv" "utf8" = inr text ->
     Papa_parse text = inr parsed ->
     Forall (fun r => isNaN (difference r) = true)
            (processedData (parsedData parsed)) ->
     avgDifference (view (snd (loadData initialWorld))) = nan /\
     shownAverage (view (snd (loadData initialWorld))) = Some "NaN").
Proof.
  split.
  - intros e Hfail. rewrite (loadData_on_failure e initialWorld Hfail).
    split; reflexivity.
  - intros text parsed Hread Hparse Hnan.
    rewrite (loadData_on_success text parsed initialWorld Hread Hparse).
    unfold shownAverage, render; simpl.
    destruct (avgDiff_all_NaN _ Hnan).
    split; reflexivity.
Qed.

Lemma failed_load_shows_zero_empty_load_shows_NaN_witness :
  @shownAverage exampleEngine
    (view (snd (@loadData exampleEngine missingFile initialWorld)))
  = Some "0.0000" /\
  @shownAverage exampleEngine
    (view (snd (@loadData exampleEngine headerOnlyFile initialWorld)))
  = Some "NaN" /\
  @shownAverage exampleEngine
    (view (snd (@loadData exampleEngine textFile initialWorld)))
  = Some "NaN".
Proof.
  split; [|split].
  - apply (proj1 (@failed_load_shows_zero_empty_load_shows_NaN
                    exampleEngine missingFile) (Error "ENOENT: diff.csv")).
    left. reflexivity.
  - apply (proj2 (@failed_load_shows_zero_empty_load_shows_NaN
                    exampleEngine headerOnlyFile)
             "Row Index,Xgboost (AUROC),Neural Net (AUROC),Difference"
             {| parsedData := []; parsedErrors := [] |});
      [reflexivity | reflexivity | constructor].
  - eapply (proj2 (@failed_load_shows_zero_empty_load_shows_NaN
                     exampleEngine textFile));
      [reflexivity | reflexivity | repeat constructor].
Defined.

(** ** The two-row scenario *)

(** C9, as stated: the scenario's values taken as exact binary64 numbers do
    not hold:
    [0.85 - 0.90] is not the number nearest to [-0.05]. *)
Lemma scenario_values_are_not_exact :
  ~ (let d := @processedData exampleEngine scenarioRows in
     map difference d = [(-0.05)%float; 0.15%float] /\
     avgDiff d = 0.05%float /\
     wins d = 1%nat /\ losses d = 1%nat /\ ties d = 0%nat).
Proof.
  intros (Hd & _).
  apply (f_equal (map (fun x => PrimFloat.eqb x (-0.05)))) in Hd.
  vm_compute in Hd. discriminate.
Qed.

(** Nor do they under JavaScript's own [===]. *)
Lemma scenario_values_differ_under_strict_equality :
  let d := @processedData exampleEngine scenarioRows in
  map (fun x => PrimFloat.eqb (fst x) (snd x))
      (zip (map difference d ++ [avgDiff d]) [(-0.05)%float; 0.15%float; 0.05%float])
  = [false; false; false].
Proof. vm_compute. reflexivity. Qed.

(** C9 (amended): for the two rows of the scenario the differences are the
    binary64 results [-0.050000000000000044] and [0.14999999999999991], the
    average is [0.049999999999999933]; to four decimals, as the page shows
    them, they are [-0.0500], [0.1500] and [0.0500]; there is one win, one
    loss and no tie. *)
Theorem scenario_outcome `{Engine} :
  let d := processedData scenarioRows in
  map difference d
  = [(-0.050000000000000044)%float; 0.14999999999999991%float] /\
  avgDiff d = 0.049999999999999933%float /\
  map (fun x => toFixed x 4) (map difference d) = ["-0.0500"; "0.1500"] /\
  toFixed (avgDiff d) 4 = "0.0500" /\
  wins d = 1%nat /\ losses d = 1%nat /\ ties d = 0%nat /\
  view (snd (@loadData _ scenarioFile initialWorld))
  = {| data := d; avgDifference := 0.049999999999999933%float; loading := false |}.
Proof.
  intros d. subst d.
  repeat split; vm_compute; reflexivity.
Qed.

(** * Further properties of the component *)

(** ** Binary64 facts the properties below rest on *)

Lemma SFcompare_refl (x : spec_float) :
  x <> S754_nan -> SFcompare x x = Some Eq.
Proof.
  destruct x as [s|s| |s m e]; cbn; try congruence; intros _.
  - now destruct s.
  - rewrite Z.compare_refl.
    assert (Hm : PosDef.Pos.compare_cont Eq m m = Eq)
      by apply Pos.compare_cont_refl.
    rewrite Hm. now destruct s.
Qed.

Lemma isNaN_Prim2SF (d : float) : isNaN d = true <-> Prim2SF d = S754_nan.
Proof.
  unfold isNaN, PrimFloat.is_nan. rewrite FloatAxioms.eqb_spec. unfold SFeqb.
  split.
  - intros Hd. destruct (Prim2SF d) eqn:E; try reflexivity;
      rewrite SFcompare_refl in Hd by discriminate; discriminate.
  - intros ->. reflexivity.
Qed.

Lemma not_NaN_Prim2SF (d : float) : isNaN d = false <-> Prim2SF d <> S754_nan.
Proof.
  rewrite <- isNaN_Prim2SF. destruct (isNaN d); split; congruence.
Qed.

Section Rounding.
Variables prec emax : Z.

Lemma shr_1_nonneg mrs : (0 <= shr_m mrs)%Z -> (0 <= shr_m (shr_1 mrs))%Z.
Proof.
  destruct mrs as [m r s]; simpl.
  destruct m as [|[p|p|]|[p|p|]]; simpl; lia.
Qed.

Lemma iter_pos_invariant {A} (P : A -> Prop) (f : A -> A) :
  (forall a, P a -> P (f a)) ->
  forall n a, P a -> P (@SpecFloat.iter_pos A f n a).
Proof.
  intros Hf. induction n as [n IH|n IH|]; intros a Ha; simpl; auto.
Qed.

Lemma shr_fexp_nonneg m e l :
  (0 <= m)%Z -> (0 <= shr_m (fst (shr_fexp prec emax m e l)))%Z.
Proof.
  intros Hm. unfold shr_fexp, shr.
  assert (H0 : (0 <= shr_m (shr_record_of_loc m l))%Z).
  { destruct l as [|[]]; exact Hm. }
  destruct (_ - e)%Z; simpl; try exact H0.
  apply (iter_pos_invariant (fun mrs => (0 <= shr_m mrs)%Z));
    [apply shr_1_nonneg | exact H0].
Qed.

Lemma round_nearest_even_nonneg m l :
  (0 <= m)%Z -> (0 <= round_nearest_even m l)%Z.
Proof.
  intros Hm. destruct l as [|[]]; simpl; try lia.
  destruct (Z.even m); lia.
Qed.

Lemma binary_round_aux_not_nan sx mx ex lx :
  (0 <= mx)%Z -> binary_round_aux prec emax sx mx ex lx <> S754_nan.
Proof.
  intros Hm. unfold binary_round_aux.
  pose proof (shr_fexp_nonneg mx ex lx Hm) as H1.
  destruct (shr_fexp prec emax mx ex lx) as [mrs' e']. simpl in H1.
  pose proof (shr_fexp_nonneg _ e' loc_Exact
                (round_nearest_even_nonneg _ (loc_of_shr_record mrs') H1)) as H2.
  destruct (shr_fexp prec emax _ e' loc_Exact) as [mrs'' e'']. simpl in H2.
  destruct (shr_m mrs'') as [|m|m]; try discriminate; [|lia].
  destruct (e'' <=? emax - prec)%Z; discriminate.
Qed.

Lemma binary_normalize_not_nan m e szero :
  binary_normalize prec emax m e szero <> S754_nan.
Proof.
  destruct m as [|m|m]; simpl; try discriminate;
    unfold binary_round; destruct (shl_align _ _ _) as [mz ez];
    apply binary_round_aux_not_nan; lia.
Qed.

(** A subtraction gives NaN only from a NaN or from two infinities of one
    sign. *)
Lemma SFsub_nan x y :
  SFsub prec emax x y = S754_nan ->
  x = S754_nan \/ y = S754_nan \/
  exists s, x = S754_infinity s /\ y = S754_infinity s.
Proof.
  destruct x as [sx|sx| |sx mx ex], y as [sy|sy| |sy my ey]; simpl; auto;
    try discriminate.
  - destruct sx, sy; discriminate.
  - destruct sx, sy; try discriminate; eauto.
  - intros Hn. now apply binary_normalize_not_nan in Hn.
Qed.

End Rounding.

Lemma finite_Prim2SF (x : float) :
  PrimFloat.is_finite x = true ->
  Prim2SF x <> S754_nan /\ forall s, Prim2SF x <> S754_infinity s.
Proof.
  unfold PrimFloat.is_finite. intros Hfin.
  apply negb_true_iff, orb_false_iff in Hfin as [Hnan Hinf].
  split; [now apply not_NaN_Prim2SF|].
  intros s Hs. unfold PrimFloat.is_infinity in Hinf.
  rewrite FloatAxioms.eqb_spec, FloatAxioms.abs_spec, Hs in Hinf.
  discriminate.
Qed.

Lemma sub_finite_not_NaN (x y : float) :
  PrimFloat.is_finite x = true -> PrimFloat.is_finite y = true ->
  isNaN (PrimFloat.sub x y) = false.
Proof.
  intros [Hx Hxi]%finite_Prim2SF [Hy Hyi]%finite_Prim2SF.
  apply not_NaN_Prim2SF. rewrite FloatAxioms.sub_spec. intros Hn.
  apply SFsub_nan in Hn as [Hn | [Hn | (s & Hn & _)]]; try contradiction.
  now apply (Hxi s).
Qed.

Lemma sub_NaN_l (x y : float) :
  isNaN x = true -> isNaN (PrimFloat.sub x y) = true.
Proof.
  intros Hx%isNaN_Prim2SF. apply isNaN_Prim2SF.
  rewrite FloatAxioms.sub_spec, Hx. reflexivity.
Qed.

Lemma sub_NaN_r (x y : float) :
  isNaN y = true -> isNaN (PrimFloat.sub x y) = true.
Proof.
  intros Hy%isNaN_Prim2SF. apply isNaN_Prim2SF.
  rewrite FloatAxioms.sub_spec, Hy. unfold SF64sub.
  now destruct (Prim2SF x).
Qed.

(** A NaN is neither above, below nor equal to zero. *)
Lemma NaN_in_no_tile (d : float) :
  isNaN d = true ->
  PrimFloat.ltb 0 d = false /\ PrimFloat.ltb d 0 = false /\
  PrimFloat.eqb d 0 = false.
Proof.
  intros Hd%isNaN_Prim2SF.
  rewrite !FloatAxioms.ltb_spec, FloatAxioms.eqb_spec, Hd.
  repeat split; reflexivity.
Qed.

(** ** The load, whatever its outcome *)

(** X1: whatever the file access and the parser do, [loadData] completes
    normally, has read [diff.csv] once, has cleared the loading flag, and
    the component then renders the page and not the loading indicator. *)
Theorem loadData_always_completes `{Engine} `{Host} (w : World) :
  fst (loadData w) = Normal tt /\
  loading (view (snd (loadData w))) = false /\
  reads (snd (loadData w)) = reads w ++ ["diff.csv"] /\
  render (view (snd (loadData w))) <> LoadingIndicator.
Proof.
  destruct load_outcome as [[e He] | (text & parsed & Hread & Hparse)].
  - rewrite (loadData_on_failure e w He).
    repeat split; try reflexivity. discriminate.
  - rewrite (loadData_on_success text parsed w Hread Hparse).
    repeat split; try reflexivity. discriminate.
Qed.

(** X2: when the file is read and parsed, parse errors are logged once and
    stop nothing: every parsed row becomes a comparison row, the page counts
    them all and charts the i-th at its row index and difference. *)
Theorem successful_load_shows_every_parsed_row `{Engine} `{Host}
    (text : string) (parsed : ParseResult) (w : World) :
  readFile "diff.csv" "utf8" = inr text ->
  Papa_parse text = inr parsed ->
  let w' := snd (loadData w) in
  data (view w') = processedData (parsedData parsed) /\
  (parsedErrors parsed = [] -> console w' = console w) /\
  (parsedErrors parsed <> [] ->
   console w' = console w ++ [CsvParsingErrors (parsedErrors parsed)]) /\
  exists page,
    render (view w') = Page page /\
    totalComparisons page = length (parsedData parsed) /\
    forall i,
      chart page !! i
      = (fun row => (rowIndex (processRow row i), difference (processRow row i)))
          <$> parsedData parsed !! i.
Proof.
  intros Hread Hparse w'. subst w'.
  rewrite (loadData_on_success text parsed w Hread Hparse).
  unfold after_success; simpl.
  split; [reflexivity|]. split; [|split].
  - intros ->. simpl. now rewrite app_nil_r.
  - intros Hne. destruct (parsedErrors parsed); [contradiction | reflexivity].
  - eexists. split; [reflexivity|]. simpl. split.
    + unfold processedData. apply length_imap.
    + intros i. rewrite list_lookup_fmap, processedData_lookup.
      now destruct (parsedData parsed !! i).
Qed.

Lemma successful_load_shows_every_parsed_row_witness :
  let w' := snd (@loadData exampleEngine textFile initialWorld) in
  data (view w') = @processedData exampleEngine [textRow; textRow'] /\
  length (console w') = 1%nat.
Proof.
  intros w'.
  destruct (@successful_load_shows_every_parsed_row exampleEngine textFile
              "two rows with a textual score"
              {| parsedData := [textRow; textRow'];
                 parsedErrors := [ {| errorType := "FieldMismatch";
                                      errorCode := "TooFewFields";
                                      errorMessage := "Too few fields";
                                      errorRow := 0 |} ] |}
              initialWorld eq_refl eq_refl) as (Hdata & _ & Hlog & _).
  split; [exact Hdata|].
  subst w'. rewrite Hlog by discriminate. reflexivity.
Defined.

(** X3: when [loadData] has completed, the stored data and average are
    either both the ones from before the load, or both new, the average
    being the average of the stored data. *)
Theorem load_commits_data_and_average_together `{Engine} `{Host} (w : World) :
  let v := view (snd (loadData w)) in
  (data v = data (view w) /\ avgDifference v = avgDifference (view w)) \/
  avgDifference v = avgDiff (data v).
Proof.
  intros v. subst v.
  destruct load_outcome as [[e He] | (text & parsed & Hread & Hparse)].
  - left. rewrite (loadData_on_failure e w He). split; reflexivity.
  - right. rewrite (loadData_on_success text parsed w Hread Hparse).
    reflexivity.
Qed.

(** ** Tiles *)

Lemma tile_flags (d : float) :
  (Nat.b2n (PrimFloat.ltb 0 d) + Nat.b2n (PrimFloat.ltb d 0)
   + Nat.b2n (PrimFloat.eqb d 0) + Nat.b2n (isNaN d) = 1)%nat.
Proof.
  destruct (isNaN d) eqn:Hd.
  - destruct (NaN_in_no_tile d Hd) as (-> & -> & ->). reflexivity.
  - pose proof (sign_trichotomy d Hd). simpl. lia.
Qed.

Lemma tiles_and_NaN_rows (d : list ComparisonRow) :
  (wins d + losses d + ties d + countNaN d = length d)%nat.
Proof.
  unfold wins, losses, ties, countNaN.
  induction d as [|r d IH]; [reflexivity|].
  rewrite !count_filter_cons. pose proof (tile_flags (difference r)).
  simpl. lia.
Qed.

Lemma countNaN_zero (d : list ComparisonRow) :
  countNaN d = 0%nat <-> Forall (fun r => isNaN (difference r) = false) d.
Proof.
  unfold countNaN. induction d as [|r d IH]; [split; constructor|].
  rewrite count_filter_cons, Forall_cons, <- IH.
  destruct (isNaN (difference r)); simpl; split;
    try lia; try tauto; intros [? ?]; congruence.
Qed.

(** X4: every row is counted by exactly one of the three tiles or has a
    NaN difference; so the three tiles add up to the total exactly when no
    row has a NaN difference. *)
Theorem tiles_miss_exactly_the_NaN_rows (d : list ComparisonRow) :
  (wins d + losses d + ties d + countNaN d = length d)%nat /\
  ((wins d + losses d + ties d = length d)%nat <->
   Forall (fun r => isNaN (difference r) = false) d).
Proof.
  pose proof (tiles_and_NaN_rows d) as Hsum.
  split; [exact Hsum|].
  rewrite <- countNaN_zero. lia.
Qed.

(** ** Scores that are absent, empty, finite or textual *)

Section Scores.
Context `{Engine}.

Lemma blank_defaults (row : RawRow) key :
  blank (row !! key) -> or (get row key) (Number 0) = Number 0.
Proof. unfold get. now intros [-> | ->]. Qed.

Lemma plain_score_finite (row : RawRow) key :
  plain_score (row !! key) ->
  exists x, or (get row key) (Number 0) = Number x /\
            PrimFloat.is_finite x = true.
Proof.
  unfold plain_score, get, or.
  destruct (row !! key) as [[| |x| |]|]; simpl; try contradiction;
    try (intros _; exists 0%float; split; reflexivity).
  intros Hx. destruct (negb _); [exists x | exists 0%float]; now split.
Qed.

Lemma plain_row_difference (row : RawRow) (i : nat) :
  plain_row row -> isNaN (difference (processRow row i)) = false.
Proof.
  intros [Hnn Hxgb]. unfold processRow, minus; simpl.
  destruct (plain_score_finite row _ Hnn) as (x & -> & Hx).
  destruct (plain_score_finite row _ Hxgb) as (y & -> & Hy).
  simpl. now apply sub_finite_not_NaN.
Qed.

Lemma positive_is_truthy (x : float) :
  PrimFloat.ltb 0 x = true -> or (Number x) (Number 0) = Number x.
Proof.
  intros Hx. unfold or; simpl.
  destruct (isNaN x) eqn:Hn.
  - destruct (NaN_in_no_tile x Hn) as (Hlt & _). congruence.
  - pose proof (sign_trichotomy x Hn) as Hs. rewrite Hx in Hs.
    destruct (PrimFloat.eqb x 0); [simpl in Hs; lia | reflexivity].
Qed.

Lemma zero_minus_positive (x : float) :
  PrimFloat.ltb 0 x = true -> PrimFloat.ltb (PrimFloat.sub 0 x) 0 = true.
Proof.
  rewrite !FloatAxioms.ltb_spec, FloatAxioms.sub_spec.
  change (Prim2SF 0) with (S754_zero false).
  destruct (Prim2SF x) as [s|s| |s m e]; cbn; try discriminate;
    destruct s; try discriminate; reflexivity.
Qed.

End Scores.

Lemma validDifferences_all_valid (d : list ComparisonRow) :
  Forall (fun r => isNaN (difference r) = false) d ->
  validDifferences d = map difference d.
Proof.
  unfold validDifferences.
  induction 1 as [|r d Hr _ IH]; [reflexivity|].
  simpl. rewrite Hr. simpl. now rewrite IH.
Qed.

(** X5: when every score of every row is absent, empty or a finite number,
    no difference is NaN: every row enters the average and the three tiles
    add up to the total. *)
Theorem plain_rows_are_all_counted `{Engine} (rows : list RawRow) :
  Forall plain_row rows ->
  Forall (fun r => isNaN (difference r) = false) (processedData rows) /\
  length (validDifferences (processedData rows)) = length rows /\
  (wins (processedData rows) + losses (processedData rows)
   + ties (processedData rows) = length rows)%nat.
Proof.
  intros Hrows.
  assert (Hvalid : Forall (fun r => isNaN (difference r) = false)
                          (processedData rows)).
  { apply Forall_forall. intros r Hr.
    destruct (processedData_elem rows r Hr) as (i & row & Hrow & ->).
    apply plain_row_difference.
    apply (proj1 (Forall_forall _ _) Hrows), list_elem_of_lookup. eauto. }
  assert (Hlen : length (processedData rows) = length rows)
    by (unfold processedData; apply length_imap).
  split; [exact Hvalid|]. split.
  - now rewrite (validDifferences_all_valid _ Hvalid), length_map.
  - rewrite <- Hlen. now apply tiles_partition_non_NaN.
Qed.

Lemma plain_rows_are_all_counted_witness :
  length (validDifferences
            (@processedData exampleEngine (scenarioRows ++ [shortRow; blankRow])))
  = 4%nat.
Proof.
  apply (@plain_rows_are_all_counted exampleEngine
           (scenarioRows ++ [shortRow; blankRow])).
  repeat constructor.
Defined.

(** X6: a row that has a positive XGBoost score and no neural-net score
    (absent or empty) gets the difference [0 - xgboost] and is counted as an
    XGBoost win. *)
Theorem missing_neuralNet_is_an_xgboost_win `{Engine}
    (row : RawRow) (i : nat) (x : float) :
  blank (row !! "Neural Net (AUROC)") ->
  row !! "Xgboost (AUROC)" = Some (FNumber x) ->
  PrimFloat.ltb 0 x = true ->
  difference (processRow row i) = PrimFloat.sub 0 x /\
  losses [processRow row i] = 1%nat /\ wins [processRow row i] = 0%nat /\
  ties [processRow row i] = 0%nat.
Proof.
  intros Hnn Hxgb Hx.
  assert (Hd : difference (processRow row i) = PrimFloat.sub 0 x).
  { unfold processRow, minus; simpl.
    rewrite (blank_defaults row _ Hnn), (get_Some row _ _ Hxgb); simpl.
    now rewrite (positive_is_truthy x Hx). }
  pose proof (zero_minus_positive x Hx) as Hlt.
  assert (Hn : isNaN (PrimFloat.sub 0 x) = false).
  { destruct (isNaN (PrimFloat.sub 0 x)) eqn:Hn; [|reflexivity].
    destruct (NaN_in_no_tile _ Hn) as (_ & Hlt' & _). congruence. }
  pose proof (sign_trichotomy _ Hn) as Hs. rewrite Hlt in Hs.
  split; [exact Hd|].
  unfold losses, wins, ties. rewrite !count_filter_cons, Hd, Hlt.
  destruct (PrimFloat.ltb 0 (PrimFloat.sub 0 x)),
           (PrimFloat.eqb (PrimFloat.sub 0 x) 0); simpl in *;
    repeat split; lia.
Qed.

Lemma missing_neuralNet_is_an_xgboost_win_witness :
  difference (@processRow exampleEngine shortRow 3) = PrimFloat.sub 0 0.8 /\
  losses [@processRow exampleEngine shortRow 3] = 1%nat.
Proof.
  destruct (@missing_neuralNet_is_an_xgboost_win exampleEngine shortRow 3 0.8)
    as (Hd & Hl & _).
  - left. reflexivity.
  - reflexivity.
  - reflexivity.
  - split; [exact Hd | exact Hl].
Defined.

(** X7: rows whose two scores are both absent or empty get the difference
    0 and are all counted as ties. *)
Theorem blank_rows_are_ties `{Engine} (rows : list RawRow) :
  Forall (fun row => blank (row !! "Neural Net (AUROC)") /\
                     blank (row !! "Xgboost (AUROC)")) rows ->
  Forall (fun r => difference r = 0%float) (processedData rows) /\
  ties (processedData rows) = length rows /\
  wins (processedData rows) = 0%nat /\ losses (processedData rows) = 0%nat.
Proof.
  intros Hrows.
  assert (Hzero : Forall (fun r => difference r = 0%float) (processedData rows)).
  { apply Forall_forall. intros r Hr.
    destruct (processedData_elem rows r Hr) as (i & row & Hrow & ->).
    assert (Hin : row ∈ rows) by (apply list_elem_of_lookup; eauto).
    destruct (proj1 (Forall_forall _ _) Hrows row Hin) as [Hnn Hxgb].
    unfold processRow, minus; simpl.
    now rewrite (blank_defaults row _ Hnn), (blank_defaults row _ Hxgb). }
  split; [exact Hzero|].
  rewrite <- (length_imap (fun index row => processRow row index) rows).
  fold (processedData rows).
  unfold ties, wins, losses.
  induction Hzero as [|r d Hr _ IH]; [repeat split; reflexivity|].
  simpl. rewrite Hr. simpl. destruct IH as (-> & -> & ->).
  repeat split; reflexivity.
Qed.

Lemma blank_rows_are_ties_witness :
  ties (@processedData exampleEngine [blankRow; ∅]) = 2%nat.
Proof.
  apply (@blank_rows_are_ties exampleEngine [blankRow; ∅]).
  constructor; [split; right; reflexivity|].
  constructor; [split; left; reflexivity|]. constructor.
Defined.

(** X8: a score field holding non-empty text that is not numeric is kept as
    text in the comparison row, not replaced by 0, and makes the row's
    difference NaN. *)
Theorem textual_score_gives_NaN `{Engine} (row : RawRow) (i : nat) (s : string) :
  s <> "" ->
  isNaN (StringToNumber s) = true ->
  (row !! "Neural Net (AUROC)" = Some (FText s) ->
   neuralNet (processRow row i) = Str s /\
   isNaN (difference (processRow row i)) = true) /\
  (row !! "Xgboost (AUROC)" = Some (FText s) ->
   xgboost (processRow row i) = Str s /\
   isNaN (difference (processRow row i)) = true).
Proof.
  intros Hs Hnan.
  assert (Hor : or (Str s) (Number 0) = Str s).
  { unfold or; simpl. now rewrite (proj2 (String.eqb_neq s "") Hs). }
  split; intros Hk; unfold processRow, minus; simpl;
    rewrite (get_Some row _ _ Hk); simpl; rewrite Hor; simpl;
    (split; [reflexivity|]).
  - now apply sub_NaN_l.
  - now apply sub_NaN_r.
Qed.

Lemma textual_score_gives_NaN_witness :
  neuralNet (@processRow exampleEngine textRow 0) = Str "n/a" /\
  isNaN (difference (@processRow exampleEngine textRow 0)) = true.
Proof.
  apply (proj1 (@textual_score_gives_NaN exampleEngine textRow 0 "n/a"
                  ltac:(discriminate) eq_refl)).
  reflexivity.
Defined.

(** ** The page in its degenerate states *)

(** X9: a loaded page without data shows a total of 0, an empty chart, and
    in each of the three tiles the count 0 with the percentage [NaN%]. *)
Theorem empty_page_shows_NaN_percentages `{Engine} (s : ViewState) :
  loading s = false ->
  data s = [] ->
  exists page,
    render s = Page page /\
    totalComparisons page = 0%nat /\ chart page = [] /\
    deepLearningWins page = {| tileCount := 0; tilePercent := "NaN%" |} /\
    xgboostWins page = {| tileCount := 0; tilePercent := "NaN%" |} /\
    tiedPerformance page = {| tileCount := 0; tilePercent := "NaN%" |}.
Proof.
  intros Hl Hd. unfold render. rewrite Hl, Hd.
  eexists. split; [reflexivity|]. simpl.
  repeat split; reflexivity.
Qed.

Lemma empty_page_shows_NaN_percentages_witness :
  exists page,
    @render exampleEngine
      (view (snd (@loadData exampleEngine missingFile initialWorld)))
    = Page page /\
    deepLearningWins page = {| tileCount := 0; tilePercent := "NaN%" |}.
Proof.
  destruct (@empty_page_shows_NaN_percentages exampleEngine
              (view (snd (@loadData exampleEngine missingFile initialWorld)))
              eq_refl eq_refl) as (page & Hpage & _ & _ & Hwins & _).
  exists page. split; [exact Hpage | exact Hwins].
Defined.

(** X10: when the stored average is NaN, the loaded page shows the text
    [NaN] in a red badge and labels the average line [Average: NaN]. *)
Theorem NaN_average_is_shown_red `{Engine} (s : ViewState) :
  loading s = false ->
  isNaN (avgDifference s) = true ->
  exists page,
    render s = Page page /\
    averageText page = "NaN" /\ averageBadge page = Red /\
    averageLabel page = "Average: NaN".
Proof.
  intros Hl Hnan%isNaN_Prim2SF. unfold render. rewrite Hl.
  eexists. split; [reflexivity|]. simpl.
  unfold toFixed. rewrite FloatAxioms.leb_spec, Hnan.
  repeat split; reflexivity.
Qed.

Lemma NaN_average_is_shown_red_witness :
  exists page,
    @render exampleEngine
      (view (snd (@loadData exampleEngine textFile initialWorld)))
    = Page page /\
    averageText page = "NaN" /\ averageBadge page = Red /\
    averageLabel page = "Average: NaN".
Proof.
  apply (@NaN_average_is_shown_red exampleEngine
           (view (snd (@loadData exampleEngine textFile initialWorld))));
    reflexivity.
Defined.

(** X11: the page reads the row index and the difference of a comparison
    row and nothing else: two data sets that agree row by row on these two
    fields render the same page. *)
Theorem page_reads_index_and_difference_only `{Engine}
    (d1 d2 : list ComparisonRow) (a : float) (l : bool) :
  Forall2 (fun r1 r2 => rowIndex r1 = rowIndex r2 /\
                        difference r1 = difference r2) d1 d2 ->
  render {| data := d1; avgDifference := a; loading := l |}
  = render {| data := d2; avgDifference := a; loading := l |}.
Proof.
  intros Hrows. apply render_by_chart.
  induction Hrows as [|r1 r2 d1 d2 [Hi Hd] _ IH]; [reflexivity|].
  simpl. now rewrite Hi, Hd, IH.
Qed.

Lemma page_reads_index_and_difference_only_witness :
  @render exampleEngine
    {| data := [ {| rowIndex := Number 7; xgboost := Number 0.5;
                    neuralNet := Number 0.75; difference := 0.25;
                    originalDifference := Number 0 |} ];
       avgDifference := 0.25; loading := false |}
  = @render exampleEngine
      {| data := [ {| rowIndex := Number 7; xgboost := Null;
                      neuralNet := Str "?"; difference := 0.25;
                      originalDifference := Number 9 |} ];
         avgDifference := 0.25; loading := false |}.
Proof.
  apply (@page_reads_index_and_difference_only exampleEngine).
  constructor; [split; reflexivity | constructor].
Defined.

(** X12: for rows none of which has a [Row Index] field, the row indices
    are the positions 0, 1, 2, ... in order, so the chart is drawn against
    the position in the file. *)
Theorem positions_index_the_rows_without_Row_Index `{Engine} (rows : list RawRow) :
  Forall (fun row => row !! "Row Index" = None) rows ->
  map rowIndex (processedData rows)
  = map (fun i => Number (number_of_nat i)) (seq 0 (length rows)).
Proof.
  intros Hrows. apply list_eq. intros i.
  rewrite !list_lookup_fmap, processedData_lookup.
  destruct (rows !! i) as [row|] eqn:Hrow; simpl.
  - rewrite (lookup_seq_lt 0 (length rows) i)
      by (apply lookup_lt_is_Some; eauto).
    simpl. unfold processRow; simpl.
    assert (Hin : row ∈ rows) by (apply list_elem_of_lookup; eauto).
    now rewrite (get_None row _ (proj1 (Forall_forall _ _) Hrows row Hin)).
  - apply lookup_ge_None in Hrow.
    now rewrite (lookup_seq_ge 0 (length rows) i Hrow).
Qed.

Lemma positions_index_the_rows_without_Row_Index_witness :
  map rowIndex (@processedData exampleEngine [textRow; xgboostOnlyRow; ∅])
  = [Number 0; Number 1; Number 2].
Proof.
  apply (@positions_index_the_rows_without_Row_Index exampleEngine
           [textRow; xgboostOnlyRow; ∅]).
  repeat constructor.
Defined.
